(** * GA4 caching proxy (app.py): TTL cache, cache keys, report normalisation

    A shallow embedding of [src/app.py].  The module-level [cache]
    dictionary is a [gmap] from keys to [(expiry, value)] pairs, the
    handlers are state-passing functions over a [world] (the cache plus a
    log of the calls made to the Google Analytics client), and the Python
    builtins the handlers rely on ([float], [int], [str], truthiness) are
    modelled next to them.

    Modelling conventions.
    - Python [str] values are Rocq [string]s, read as ASCII text.
    - Clock readings ([time.time()]) are exact rationals; binary64
      rounding of [time.time() + ttl] is not modelled.
    - [float(s)] is correctly rounded to binary64 (round half to even),
      as CPython does, on top of [SpecFloat]. *)

From Stdlib Require Import ZArith QArith Lqa String Ascii List Lia Bool.
From Stdlib Require Import Floats.SpecFloat.
From stdpp Require Import gmap strings pretty list.

Set Warnings "-register-all".
Local Open Scope Z_scope.

(* ===================================================================== *)
(** ** Results of fallible Python code *)
(* ===================================================================== *)

(** [Ok a] is normal completion, [Raise e] an exception in flight. *)
Inductive result (E A : Type) : Type :=
  | Ok (a : A)
  | Raise (e : E).
Arguments Ok {E A} a.
Arguments Raise {E A} e.

Definition bind {E A B} (r : result E A) (k : A -> result E B) : result E B :=
  match r with
  | Ok a => k a
  | Raise e => Raise e
  end.

(** [try: body / except Exception: handler].  The handler sees every
    exception of the body, so the block raises only what the handler
    raises: the error type changes from [E] to [E']. *)
Definition try_except {E E' A} (body : result E A) (handler : E -> result E' A)
  : result E' A :=
  match body with
  | Ok a => Ok a
  | Raise e => handler e
  end.

(** Exceptions of the builtin conversions.  Their message text is never
    observed by the handlers and is not modelled. *)
Inductive conv_error : Type :=
  | ValueError
  | TypeError
  | OverflowError.

(** The objects a row can hand to [float()]: protobuf gives [str]; [None]
    stands for an absent value. *)
Inductive py_value : Type :=
  | PyNone
  | PyStr (s : string).

(* ===================================================================== *)
(** ** The builtins [float(x)], [int(x)] *)
(* ===================================================================== *)

Module Builtins.

Definition code (c : ascii) : Z := Z.of_nat (nat_of_ascii c).

(** ASCII whitespace stripped by [float] and [int]: TAB LF VT FF CR SPACE. *)
Definition is_space (c : ascii) : bool :=
  ((9 <=? code c) && (code c <=? 13)) || (code c =? 32).

Definition digit_val (c : ascii) : option Z :=
  if (48 <=? code c) && (code c <=? 57) then Some (code c - 48) else None.

Definition is_char (n : Z) (c : ascii) : bool := code c =? n.

Definition lower (c : ascii) : ascii :=
  if (65 <=? code c) && (code c <=? 90)
  then ascii_of_nat (Z.to_nat (code c + 32)) else c.

Fixpoint lstrip (l : list ascii) : list ascii :=
  match l with
  | c :: l' => if is_space c then lstrip l' else l
  | [] => []
  end.

Definition strip (l : list ascii) : list ascii :=
  rev (lstrip (rev (lstrip l))).

(** [digit (["_"] digit)*] after its first digit: [v] is the value read
    so far, [n] the number of digits; the unread input is returned. *)
Fixpoint digits_go (l : list ascii) (v n : Z) : Z * Z * list ascii :=
  match l with
  | c :: l' =>
      match digit_val c with
      | Some d => digits_go l' (10 * v + d) (n + 1)
      | None =>
          if is_char 95 c then
            match l' with
            | c2 :: l'' =>
                match digit_val c2 with
                | Some d => digits_go l'' (10 * v + d) (n + 1)
                | None => (v, n, l)
                end
            | [] => (v, n, l)
            end
          else (v, n, l)
      end
  | [] => (v, n, [])
  end.

(** [digitpart ::= digit (["_"] digit)*]; [None] when no digit leads. *)
Definition digitpart (l : list ascii) : option (Z * Z * list ascii) :=
  match l with
  | c :: l' =>
      match digit_val c with
      | Some d => Some (digits_go l' d 1)
      | None => None
      end
  | [] => None
  end.

(** [["+" | "-"]]: the sign read ([true] is minus) and the rest. *)
Definition sign (l : list ascii) : bool * list ascii :=
  match l with
  | c :: l' =>
      if is_char 45 c then (true, l')
      else if is_char 43 c then (false, l')
      else (false, l)
  | [] => (false, [])
  end.

(** [number ::= [digitpart] "." digitpart | digitpart ["."]]:
    mantissa digits as an integer, the number of fraction digits, rest. *)
Definition number (l : list ascii) : option (Z * Z * list ascii) :=
  match digitpart l with
  | Some (iv, _, rest) =>
      match rest with
      | c :: rest' =>
          if is_char 46 c then
            match digitpart rest' with
            | Some (fv, fn, rest'') => Some (iv * 10 ^ fn + fv, fn, rest'')
            | None => Some (iv, 0, rest')
            end
          else Some (iv, 0, rest)
      | [] => Some (iv, 0, [])
      end
  | None =>
      match l with
      | c :: rest' =>
          if is_char 46 c then
            match digitpart rest' with
            | Some (fv, fn, rest'') => Some (fv, fn, rest'')
            | None => None
            end
          else None
      | [] => None
      end
  end.

(** [exponent ::= ("e" | "E") [sign] digitpart], optional. *)
Definition exponent (l : list ascii) : option (Z * list ascii) :=
  match l with
  | c :: l' =>
      if is_char 101 (lower c) then
        let '(neg, l'') := sign l' in
        match digitpart l'' with
        | Some (ev, _, rest) => Some (if neg then - ev else ev, rest)
        | None => None
        end
      else Some (0, l)
  | [] => Some (0, [])
  end.

(** The binary64 nearest to [(-1)^neg * m * 10^e], ties to even. *)
Definition round_decimal (neg : bool) (m e : Z) : spec_float :=
  if m <=? 0 then S754_zero neg
  else if 0 <=? e then binary_round 53 1024 neg (Z.to_pos (m * 10 ^ e)) 0
  else
    let d := 10 ^ (- e) in
    let s := Z.log2 d + 64 in
    let '(q, r) := Z.div_eucl (m * 2 ^ s) d in
    binary_round_aux 53 1024 neg q (- s) (new_location d r).

Definition inf_or_nan (neg : bool) (l : list ascii) : option spec_float :=
  let w := string_of_list_ascii (map lower l) in
  if String.eqb w "inf" || String.eqb w "infinity" then Some (S754_infinity neg)
  else if String.eqb w "nan" then Some S754_nan
  else None.

(** [float(s)] for a [str]. *)
Definition float_of_str (s : string) : result conv_error spec_float :=
  let '(neg, l) := sign (strip (list_ascii_of_string s)) in
  match inf_or_nan neg l with
  | Some x => Ok x
  | None =>
      match number l with
      | Some (m, fn, rest) =>
          match exponent rest with
          | Some (ev, []) => Ok (round_decimal neg m (ev - fn))
          | _ => Raise ValueError
          end
      | None => Raise ValueError
      end
  end.

(** [float(x)]: [TypeError] on [None]. *)
Definition py_float (x : py_value) : result conv_error spec_float :=
  match x with
  | PyNone => Raise TypeError
  | PyStr s => float_of_str s
  end.

(** [int(x)] for a float: truncation towards zero; [OverflowError] on
    an infinity, [ValueError] on a NaN. *)
Definition int_of_float (x : spec_float) : result conv_error Z :=
  match x with
  | S754_zero _ => Ok 0
  | S754_infinity _ => Raise OverflowError
  | S754_nan => Raise ValueError
  | S754_finite s m e =>
      let a := if 0 <=? e then Z.pos m * 2 ^ e else Z.pos m / 2 ^ (- e) in
      Ok (if s then - a else a)
  end.

(** [int(s)] for a [str], base 10.  (CPython 3.11 and later also reject
    literals of more than 4300 digits; that limit is not modelled.) *)
Definition int_of_str (s : string) : result conv_error Z :=
  let '(neg, l) := sign (strip (list_ascii_of_string s)) in
  match digitpart l with
  | Some (v, _, []) => Ok (if neg then - v else v)
  | _ => Raise ValueError
  end.

End Builtins.

Import Builtins.

(* ===================================================================== *)
(** ** JSON payloads and Python truthiness *)
(* ===================================================================== *)

(** What the handlers build, cache and pass to [jsonify].  A [dict] keeps
    its insertion order; [JNull] is [None]. *)
Inductive json : Type :=
  | JNull
  | JInt (z : Z)
  | JStr (s : string)
  | JList (l : list json)
  | JDict (d : list (string * json)).

(** [bool(x)], as tested by [if x:]. *)
Definition py_truthy (x : json) : bool :=
  match x with
  | JNull => false
  | JInt z => negb (z =? 0)
  | JStr s => negb (String.eqb s "")
  | JList l => negb (bool_decide (l = []))
  | JDict d => negb (bool_decide (d = []))
  end.

Definition json_of_value (v : py_value) : json :=
  match v with
  | PyNone => JNull
  | PyStr s => JStr s
  end.

(* ===================================================================== *)
(** ** Raw report rows and their normalisation *)
(* ===================================================================== *)

(** A row of a report response; [dimension_values[i].value] and
    [metric_values[i].value] are the list elements. *)
Record raw_row : Type := RawRow {
  dimension_values : list py_value;
  metric_values : list py_value
}.

(** [for x in l: s = body(s, x)], stopping at the first exception. *)
Fixpoint for_each {E A S} (l : list A) (body : S -> A -> result E S) (s : S)
  : result E S :=
  match l with
  | [] => Ok s
  | a :: l' => bind (body s a) (for_each l' body)
  end.

(** [int(float(v))]. *)
Definition int_float (v : py_value) : result conv_error Z :=
  bind (py_float v) int_of_float.

Section Normalizer.
(** The exceptions of the enclosing [try] block. *)
Context {E : Type}.

(** The block shared by the four row-shaped endpoints:
<<
    value = 0
    if r.metric_values:
        try:    value = int(float(r.metric_values[0].value))
        except Exception: value = 0
>> *)
Definition metric_block (r : raw_row) : result E Z :=
  match metric_values r with
  | v :: _ => try_except (int_float v) (fun _ => Ok 0)
  | [] => Ok 0
  end.

(** [r.dimension_values[0].value if r.dimension_values else "(unknown)"] *)
Definition first_dimension (r : raw_row) : json :=
  match dimension_values r with
  | v :: _ => json_of_value v
  | [] => JStr "(unknown)"
  end.

(** [r.dimension_values[i].value if len(r.dimension_values) > i
    else "(unknown)"] *)
Definition dimension_at (i : nat) (r : raw_row) : json :=
  if (Z.of_nat i <? Z.of_nat (length (dimension_values r)))
  then match dimension_values r !! i with
       | Some v => json_of_value v
       | None => JNull (* not reached: the index is in range *)
       end
  else JStr "(unknown)".

(** realtime_active, lines 83-95: the running [total]. *)
Definition realtime_active_total (rows : list raw_row) : result E Z :=
  match rows with
  | [] => Ok 0
  | _ =>
      for_each rows
        (fun total row =>
           match metric_values row with
           | v :: _ =>
               try_except
                 (bind (int_float v) (fun n => Ok (total + n)))
                 (fun _ => Ok total)
           | [] => Ok total
           end)
        0
  end.

(** One iteration of a row loop: [rows.append({dim: ..., met: ...})]. *)
Definition append_row (dim met : string) (rows : list json) (r : raw_row)
  : result E (list json) :=
  let title := first_dimension r in
  bind (metric_block r) (fun value =>
  Ok (rows ++ [JDict [(dim, title); (met, JInt value)]])).

(** realtime_pages, lines 132-142. *)
Definition realtime_pages_rows (rows : list raw_row) : result E (list json) :=
  match rows with
  | [] => Ok []
  | _ => for_each rows (append_row "pageTitle" "activeUsers") []
  end.

(** urls_report, lines 178-187. *)
Definition urls_rows (rows : list raw_row) : result E (list json) :=
  for_each rows (append_row "pageLocation" "screenPageViews") [].

(** traffic_report, lines 223-233. *)
Definition traffic_rows (rows : list raw_row) : result E (list json) :=
  for_each rows
    (fun acc r =>
       let src := dimension_at 0 r in
       let med := dimension_at 1 r in
       bind (metric_block r) (fun sess =>
       Ok (acc ++ [JDict [("source", src); ("medium", med);
                          ("sessions", JInt sess)]])))
    [].

(** top_countries, lines 262-272. *)
Definition top_countries_rows (rows : list raw_row) : result E (list json) :=
  match rows with
  | [] => Ok []
  | _ => for_each rows (append_row "country" "activeUsers") []
  end.
End Normalizer.

(** The sub-algorithms as the specification words them. *)
Module Spec.
(** [coerceMetric]: parse as a float, truncate; [0] when that fails or
    the value is absent. *)
Definition coerceMetric (raw : option py_value) : Z :=
  match raw with
  | Some v =>
      match py_float v with
      | Ok x => match int_of_float x with Ok n => n | Raise _ => 0 end
      | Raise _ => 0
      end
  | None => 0
  end.

(** [coerceDimension]: the value when present, else ["(unknown)"]. *)
Definition coerceDimension (raw : option py_value) : json :=
  match raw with
  | Some v => json_of_value v
  | None => JStr "(unknown)"
  end.

(** The row a row-shaped endpoint emits for one raw row. *)
Definition row1 (dim met : string) (r : raw_row) : json :=
  JDict [(dim, coerceDimension (head (dimension_values r)));
         (met, JInt (coerceMetric (head (metric_values r))))].

Definition traffic_row (r : raw_row) : json :=
  JDict [("source", coerceDimension (dimension_values r !! 0%nat));
         ("medium", coerceDimension (dimension_values r !! 1%nat));
         ("sessions", JInt (coerceMetric (head (metric_values r))))].

(** [totalActive]: the sum of the coerced first metric of every row. *)
Definition totalActive (rows : list raw_row) : Z :=
  foldr (fun r acc => coerceMetric (head (metric_values r)) + acc) 0 rows.
End Spec.

(* ===================================================================== *)
(** ** The TTL cache *)
(* ===================================================================== *)

(** [a > b] on clock readings. *)
Definition Qgtb (a b : Q) : bool := negb (Qle_bool a b).

(** A request sent to the Google Analytics client. *)
Record report_request : Type := ReportRequest {
  rq_property : string;
  rq_date_ranges : list (string * string);
  rq_dimensions : list string;
  rq_metrics : list string;
  rq_limit : option Z
}.

(** The calls a handler makes upstream, in the order made. *)
Inductive call : Type :=
  | GetClient
  | RunRealtimeReport (rq : report_request)
  | RunReport (rq : report_request).

(** The mutable state around a request: the module-level [cache]
    ([{ key: (expiry_ts, value) }]) and the log of upstream calls. *)
Record world : Type := World {
  cache : gmap string (Q * json);
  calls : list call
}.

Definition with_cache (c : gmap string (Q * json)) (w : world) : world :=
  {| cache := c; calls := calls w |}.

Definition log_call (c : call) (w : world) : world :=
  {| cache := cache w; calls := calls w ++ [c] |}.

(** [get_cached(key)], with [now] the reading of [time.time()].  An
    entry is a 2-tuple, hence truthy whenever present. *)
Definition get_cached (now : Q) (key : string) (w : world) : json * world :=
  match cache w !! key with
  | None => (JNull, w)
  | Some (expiry, value) =>
      if Qgtb now expiry
      then (JNull, with_cache (delete key (cache w)) w)
      else (value, w)
  end.

(** [set_cached(key, value, ttl)], with [now] the reading of [time.time()]. *)
Definition set_cached (now : Q) (key : string) (value : json) (ttl : Z)
  (w : world) : world :=
  with_cache (<[key := ((now + inject_Z ttl)%Q, value)]> (cache w)) w.

(* ===================================================================== *)
(** ** The request handlers *)
(* ===================================================================== *)

(** An exception raised inside a handler's [try] block by credential
    loading, by building the request or by the client; [str_e] is
    [str(e)]. *)
Record client_error : Type := ClientError { str_e : string }.

(** The Google Analytics side, as one request sees it. *)
Record ga_client : Type := GaClient {
  credentials : result client_error unit;
  run_realtime_report : report_request -> result client_error (list raw_row);
  run_report : report_request -> result client_error (list raw_row)
}.

(** What a request reads from its environment: [time.time()] in
    [get_cached] and in [set_cached], and the [strftime] text. *)
Record clock : Type := Clock {
  time_at_get : Q;
  time_at_set : Q;
  fetched_at : string
}.

(** How a handler ends: a response body with its status, or an
    exception that leaves the handler. *)
Inductive outcome : Type :=
  | Reply (body : json) (status : Z)
  | Uncaught (e : conv_error).

(** [request.args.get(name, default)] *)
Fixpoint args_get (name default : string) (args : list (string * string))
  : string :=
  match args with
  | [] => default
  | (k, v) :: args' => if String.eqb k name then v else args_get name default args'
  end.

(** The body of a handler's [try] block: state passing with exceptions. *)
Definition action (A : Type) : Type := world -> result client_error A * world.

Definition ret {A} (a : A) : action A := fun w => (Ok a, w).

Definition abind {A B} (m : action A) (k : A -> action B) : action B :=
  fun w =>
    match m w with
    | (Ok a, w') => k a w'
    | (Raise e, w') => (Raise e, w')
    end.

Definition lift {A} (r : result client_error A) : action A := fun w => (r, w).

Notation "x <- m ;; k" := (abind m (fun x => k))
  (at level 100, m at next level, right associativity).

(** [except Exception as e: return jsonify({"error": str(e)}), 500] *)
Definition run_try (body : action json) (w : world) : outcome * world :=
  match body w with
  | (Ok out, w') => (Reply out 200, w')
  | (Raise e, w') => (Reply (JDict [("error", JStr (str_e e))]) 500, w')
  end.

Section Handlers.
(** [PROPERTY] and [CACHE_TTL], fixed when the module is loaded. *)
Variable PROPERTY : string.
Variable CACHE_TTL : Z.
Variable ga : ga_client.

Definition get_ga_client : action unit :=
  fun w => (credentials ga, log_call GetClient w).

Definition client_run_realtime_report (rq : report_request)
  : action (list raw_row) :=
  fun w => (run_realtime_report ga rq, log_call (RunRealtimeReport rq) w).

Definition client_run_report (rq : report_request) : action (list raw_row) :=
  fun w => (run_report ga rq, log_call (RunReport rq) w).

Definition store (now : Q) (key : string) (value : json) (ttl : Z)
  : action unit :=
  fun w => (Ok tt, set_cached now key value ttl w).

Definition realtime_active (t : clock) (w : world) : outcome * world :=
  let cache_key := "realtime-active" in
  let '(cached, w) := get_cached (time_at_get t) cache_key w in
  if py_truthy cached then (Reply cached 200, w)
  else
    run_try
      (_ <- get_ga_client ;;
       resp <- client_run_realtime_report
                 {| rq_property := PROPERTY; rq_date_ranges := [];
                    rq_dimensions := []; rq_metrics := ["activeUsers"];
                    rq_limit := None |} ;;
       total <- lift (realtime_active_total resp) ;;
       let out := JDict [("totalActive", JInt total);
                         ("fetchedAt", JStr (fetched_at t))] in
       _ <- store (time_at_set t) cache_key out CACHE_TTL ;;
       ret out) w.

Definition realtime_pages (t : clock) (w : world) : outcome * world :=
  let cache_key := "realtime-pages" in
  let '(cached, w) := get_cached (time_at_get t) cache_key w in
  if py_truthy cached then (Reply cached 200, w)
  else
    run_try
      (_ <- get_ga_client ;;
       resp <- client_run_realtime_report
                 {| rq_property := PROPERTY; rq_date_ranges := [];
                    rq_dimensions := ["pageTitle"];
                    rq_metrics := ["activeUsers"]; rq_limit := Some 50 |} ;;
       rows <- lift (realtime_pages_rows resp) ;;
       let out := JDict [("rows", JList rows);
                         ("fetchedAt", JStr (fetched_at t))] in
       _ <- store (time_at_set t) cache_key out CACHE_TTL ;;
       ret out) w.

(** [f"urls:{start_date}:{end_date}"] *)
Definition urls_cache_key (start_date end_date : string) : string :=
  "urls:" +:+ start_date +:+ ":" +:+ end_date.

Definition urls_report (args : list (string * string)) (t : clock) (w : world)
  : outcome * world :=
  let start_date := args_get "start_date" "7daysAgo" args in
  let end_date := args_get "end_date" "today" args in
  let cache_key := urls_cache_key start_date end_date in
  let '(cached, w) := get_cached (time_at_get t) cache_key w in
  if py_truthy cached then (Reply cached 200, w)
  else
    run_try
      (_ <- get_ga_client ;;
       resp <- client_run_report
                 {| rq_property := PROPERTY;
                    rq_date_ranges := [(start_date, end_date)];
                    rq_dimensions := ["pageLocation"];
                    rq_metrics := ["screenPageViews"];
                    rq_limit := Some 1000 |} ;;
       rows <- lift (urls_rows resp) ;;
       let out := JDict [("rows", JList rows);
                         ("rowCount", JInt (Z.of_nat (length rows)));
                         ("fetchedAt", JStr (fetched_at t))] in
       _ <- store (time_at_set t) cache_key out 30 ;;
       ret out) w.

(** [f"traffic:{start_date}:{end_date}:{limit}"]; [pretty] is [str]
    on an [int]. *)
Definition traffic_cache_key (start_date end_date : string) (limit : Z)
  : string :=
  "traffic:" +:+ start_date +:+ ":" +:+ end_date +:+ ":" +:+ pretty limit.

Definition traffic_report (args : list (string * string)) (t : clock)
  (w : world) : outcome * world :=
  let start_date := args_get "start_date" "7daysAgo" args in
  let end_date := args_get "end_date" "today" args in
  match int_of_str (args_get "limit" "100" args) with
  | Raise e => (Uncaught e, w)
  | Ok limit =>
      let cache_key := traffic_cache_key start_date end_date limit in
      let '(cached, w) := get_cached (time_at_get t) cache_key w in
      if py_truthy cached then (Reply cached 200, w)
      else
        run_try
          (_ <- get_ga_client ;;
           resp <- client_run_report
                     {| rq_property := PROPERTY;
                        rq_date_ranges := [(start_date, end_date)];
                        rq_dimensions := ["source"; "medium"];
                        rq_metrics := ["sessions"];
                        rq_limit := Some limit |} ;;
           rows <- lift (traffic_rows resp) ;;
           let out := JDict [("rows", JList rows);
                             ("rowCount", JInt (Z.of_nat (length rows)));
                             ("fetchedAt", JStr (fetched_at t))] in
           _ <- store (time_at_set t) cache_key out 30 ;;
           ret out) w
  end.

Definition top_countries (t : clock) (w : world) : outcome * world :=
  let cache_key := "top-countries" in
  let '(cached, w) := get_cached (time_at_get t) cache_key w in
  if py_truthy cached then (Reply cached 200, w)
  else
    run_try
      (_ <- get_ga_client ;;
       resp <- client_run_realtime_report
                 {| rq_property := PROPERTY; rq_date_ranges := [];
                    rq_dimensions := ["country"];
                    rq_metrics := ["activeUsers"]; rq_limit := Some 50 |} ;;
       rows <- lift (top_countries_rows resp) ;;
       let out := JDict [("rows", JList rows);
                         ("fetchedAt", JStr (fetched_at t))] in
       _ <- store (time_at_set t) cache_key out CACHE_TTL ;;
       ret out) w.
End Handlers.

(* ===================================================================== *)
(** ** Predicates on raw values and keys *)
(* ===================================================================== *)




(** [":" in s] *)
Fixpoint has_colon (s : string) : bool :=
  match s with
  | EmptyString => false
  | String c s' => Ascii.eqb c ":" || has_colon s'
  end.

(** A character that can stand in an integer literal handed to [int]:
    a digit, an underscore, a sign, or a blank around it. *)
Definition numeric_char (c : ascii) : bool :=
  is_space c || bool_decide (is_Some (digit_val c))
  || is_char 95 c || is_char 43 c || is_char 45 c.

(** A text with a character that no integer literal has, such as
    ["abc"] or ["12.5"]. *)
Definition non_numeric (s : string) : bool :=
  negb (forallb numeric_char (list_ascii_of_string s)).

(* ===================================================================== *)
(** ** The five endpoints as one table *)
(* ===================================================================== *)

(** The routes of the application that use the cache. *)
Inductive route : Type :=
  | RealtimeActive
  | RealtimePages
  | Urls (args : list (string * string))
  | Traffic (args : list (string * string))
  | TopCountries.

Definition handle (PROPERTY : string) (CACHE_TTL : Z) (ga : ga_client)
  (r : route) (t : clock) (w : world) : outcome * world :=
  match r with
  | RealtimeActive => realtime_active PROPERTY CACHE_TTL ga t w
  | RealtimePages => realtime_pages PROPERTY CACHE_TTL ga t w
  | Urls args => urls_report PROPERTY ga args t w
  | Traffic args => traffic_report PROPERTY ga args t w
  | TopCountries => top_countries PROPERTY CACHE_TTL ga t w
  end.

(** The states the running application can be in: the cache starts
    empty and changes only through requests; the client may answer each
    request differently. *)
Inductive reachable (PROPERTY : string) (CACHE_TTL : Z) : world -> Prop :=
  | reach_start : reachable PROPERTY CACHE_TTL (World ∅ [])
  | reach_request (ga : ga_client) (r : route) (t : clock) (w : world) :
      reachable PROPERTY CACHE_TTL w ->
      reachable PROPERTY CACHE_TTL (snd (handle PROPERTY CACHE_TTL ga r t w)).

(** What the specification's table says of one endpoint: its
    fingerprint, its TTL, the report it asks for and the payload it
    builds from the raw rows and the time stamp. *)
Record plan : Type := Plan {
  plan_key : string;
  plan_ttl : Z;
  plan_call : call;
  plan_payload : string -> list raw_row -> json
}.

Definition rows_payload (shape : raw_row -> json) (count : bool)
  (stamp : string) (rows : list raw_row) : json :=
  let out := map shape rows in
  JDict (("rows", JList out)
         :: (if count then [("rowCount", JInt (Z.of_nat (length out)))] else [])
         ++ [("fetchedAt", JStr stamp)]).

Definition endpoint_plan (PROPERTY : string) (CACHE_TTL : Z) (r : route)
  : result conv_error plan :=
  match r with
  | RealtimeActive =>
      Ok {| plan_key := "realtime-active"; plan_ttl := CACHE_TTL;
            plan_call := RunRealtimeReport
              {| rq_property := PROPERTY; rq_date_ranges := [];
                 rq_dimensions := []; rq_metrics := ["activeUsers"];
                 rq_limit := None |};
            plan_payload := fun stamp rows =>
              JDict [("totalActive", JInt (Spec.totalActive rows));
                     ("fetchedAt", JStr stamp)] |}
  | RealtimePages =>
      Ok {| plan_key := "realtime-pages"; plan_ttl := CACHE_TTL;
            plan_call := RunRealtimeReport
              {| rq_property := PROPERTY; rq_date_ranges := [];
                 rq_dimensions := ["pageTitle"]; rq_metrics := ["activeUsers"];
                 rq_limit := Some 50 |};
            plan_payload :=
              rows_payload (Spec.row1 "pageTitle" "activeUsers") false |}
  | Urls args =>
      let start_date := args_get "start_date" "7daysAgo" args in
      let end_date := args_get "end_date" "today" args in
      Ok {| plan_key := urls_cache_key start_date end_date; plan_ttl := 30;
            plan_call := RunReport
              {| rq_property := PROPERTY;
                 rq_date_ranges := [(start_date, end_date)];
                 rq_dimensions := ["pageLocation"];
                 rq_metrics := ["screenPageViews"]; rq_limit := Some 1000 |};
            plan_payload :=
              rows_payload (Spec.row1 "pageLocation" "screenPageViews") true |}
  | Traffic args =>
      let start_date := args_get "start_date" "7daysAgo" args in
      let end_date := args_get "end_date" "today" args in
      bind (int_of_str (args_get "limit" "100" args)) (fun limit =>
      Ok {| plan_key := traffic_cache_key start_date end_date limit;
            plan_ttl := 30;
            plan_call := RunReport
              {| rq_property := PROPERTY;
                 rq_date_ranges := [(start_date, end_date)];
                 rq_dimensions := ["source"; "medium"];
                 rq_metrics := ["sessions"]; rq_limit := Some limit |};
            plan_payload := rows_payload Spec.traffic_row true |})
  | TopCountries =>
      Ok {| plan_key := "top-countries"; plan_ttl := CACHE_TTL;
            plan_call := RunRealtimeReport
              {| rq_property := PROPERTY; rq_date_ranges := [];
                 rq_dimensions := ["country"]; rq_metrics := ["activeUsers"];
                 rq_limit := Some 50 |};
            plan_payload :=
              rows_payload (Spec.row1 "country" "activeUsers") false |}
  end.

(** The client's answer to one call. *)
Definition ga_answer (ga : ga_client) (c : call)
  : result client_error (list raw_row) :=
  match c with
  | GetClient => Ok []
  | RunRealtimeReport rq => run_realtime_report ga rq
  | RunReport rq => run_report ga rq
  end.

(** The upstream fetch of an endpoint: credentials, then the report. *)
Definition upstream (ga : ga_client) (p : plan)
  : result client_error (list raw_row) :=
  bind (credentials ga) (fun _ => ga_answer ga (plan_call p)).

(** The calls that fetch makes: the client is built, and the report is
    asked for once if that worked. *)
Definition upstream_calls (ga : ga_client) (p : plan) : list call :=
  GetClient :: match credentials ga with
               | Ok _ => [plan_call p]
               | Raise _ => []
               end.

(** The compute closure of an endpoint: fetch, then normalise. *)
Definition computeFn (ga : ga_client) (p : plan) (t : clock) : action json :=
  fun w =>
    (bind (upstream ga p) (fun rows => Ok (plan_payload p (fetched_at t) rows)),
     {| cache := cache w; calls := calls w ++ upstream_calls ga p |}).

(** [lookupOrCompute] as the specification words it: [get], and on a
    miss the compute closure followed by [set]. *)
Definition lookupOrCompute (t : clock) (fingerprint : string) (ttl : Z)
  (compute : action json) (w : world) : outcome * world :=
  let '(cached, w1) := get_cached (time_at_get t) fingerprint w in
  if py_truthy cached then (Reply cached 200, w1)
  else
    run_try
      (out <- compute ;;
       _ <- store (time_at_set t) fingerprint out ttl ;;
       ret out) w1.


(* ===================================================================== *)
(** ** Sample clients and states *)
(* ===================================================================== *)

(** A client that answers every report with two rows, and one whose
    reports fail with a quota error. *)
Definition ga_up : ga_client :=
  {| credentials := Ok tt;
     run_realtime_report := fun _ =>
       Ok [RawRow [PyStr "Home"] [PyStr "3"]; RawRow [] [PyStr "2.5"]];
     run_report := fun _ =>
       Ok [RawRow [PyStr "google"] [PyStr "7"]; RawRow [] []] |}.

Definition ga_down : ga_client :=
  {| credentials := Ok tt;
     run_realtime_report := fun _ => Raise (ClientError "429 quota exhausted");
     run_report := fun _ => Raise (ClientError "429 quota exhausted") |}.

(** The state after one [/realtime-active] request served at time 100
    with [CACHE_TTL = 5]. *)
Definition world_after_first_request : world :=
  snd (handle "123456789" 5 ga_up RealtimeActive
         (Clock 100 100 "2024-05-01T10:00:00Z") (World ∅ [])).

(** A client whose service-account file cannot be read: building the
    credentials fails, whatever report is asked for. *)
Definition ga_locked : ga_client :=
  {| credentials :=
       Raise (ClientError "[Errno 2] No such file or directory: 'service_account.json'");
     run_realtime_report := fun _ => Ok [];
     run_report := fun _ => Ok [] |}.

(* ===================================================================== *)
(** ** Module start-up and the health endpoint *)
(* ===================================================================== *)






(* ===================================================================== *)
(** ** Reading payloads and comparing endpoints *)
(* ===================================================================== *)

(** [d.get(k)] on the items of a dict. *)
Fixpoint assoc_get (k : string) (d : list (string * json)) : option json :=
  match d with
  | [] => None
  | (k', v) :: d' => if String.eqb k' k then Some v else assoc_get k d'
  end.

(** The field [k] of a payload; [None] when the payload is no dict or
    has no such field. *)
Definition dict_get (k : string) (v : json) : option json :=
  match v with
  | JDict d => assoc_get k d
  | _ => None
  end.

(** Two requests go to the same endpoint. *)
Definition same_endpoint (r1 r2 : route) : bool :=
  match r1, r2 with
  | RealtimeActive, RealtimeActive
  | RealtimePages, RealtimePages
  | Urls _, Urls _
  | Traffic _, Traffic _
  | TopCountries, TopCountries => true
  | _, _ => false
  end.

(** Every entry of the cache was written by a successful request: it sits
    under the key of an endpoint, holds that endpoint's payload for some
    answer of the client, and expires [ttl] after the clock reading of
    its [set_cached]. *)
Definition endpoint_entries (PROPERTY : string) (CACHE_TTL : Z) (w : world)
  : Prop :=
  forall (k : string) (expiry : Q) (v : json),
    cache w !! k = Some (expiry, v) ->
    exists (r : route) (p : plan) (t : clock) (rows : list raw_row),
      endpoint_plan PROPERTY CACHE_TTL r = Ok p
      /\ k = plan_key p
      /\ v = plan_payload p (fetched_at t) rows
      /\ expiry = (time_at_set t + inject_Z (plan_ttl p))%Q.


(* ===================================================================== *)
(** ** Normaliser: the code against the specification's sub-algorithms *)
(* ===================================================================== *)

Section NormalizerFacts.
Context {E : Type}.

Lemma int_float_coerce (v : py_value) :
  try_except (E':=E) (int_float v) (fun _ => Ok 0)
  = Ok (Spec.coerceMetric (Some v)).
Proof.
  unfold int_float, Spec.coerceMetric, bind, try_except.
  destruct (py_float v) as [x|e]; [|reflexivity].
  destruct (int_of_float x); reflexivity.
Qed.

Lemma metric_block_coerce (r : raw_row) :
  metric_block (E:=E) r = Ok (Spec.coerceMetric (head (metric_values r))).
Proof.
  unfold metric_block. destruct (metric_values r) as [|v mv]; [reflexivity|].
  apply int_float_coerce.
Qed.

Lemma first_dimension_coerce (r : raw_row) :
  first_dimension r = Spec.coerceDimension (head (dimension_values r)).
Proof. unfold first_dimension. by destruct (dimension_values r). Qed.

Lemma dimension_at_coerce (i : nat) (r : raw_row) :
  dimension_at i r = Spec.coerceDimension (dimension_values r !! i).
Proof.
  unfold dimension_at.
  destruct (Z.ltb_spec (Z.of_nat i) (Z.of_nat (length (dimension_values r)))) as [Hlt|Hge].
  - destruct (lookup_lt_is_Some_2 (dimension_values r) i) as [v ->]; [lia|done].
  - rewrite lookup_ge_None_2 by lia. done.
Qed.

Lemma append_row_loop (dim met : string) (rows : list raw_row) (acc : list json) :
  for_each (E:=E) rows (append_row dim met) acc
  = Ok (acc ++ map (Spec.row1 dim met) rows).
Proof.
  revert acc. induction rows as [|r rows IH]; intros acc; simpl.
  - by rewrite app_nil_r.
  - unfold append_row at 1. rewrite metric_block_coerce. simpl.
    rewrite IH, first_dimension_coerce, <- app_assoc. reflexivity.
Qed.

Lemma traffic_loop (rows : list raw_row) (acc : list json) :
  for_each (E:=E) rows
    (fun acc r =>
       let src := dimension_at 0 r in
       let med := dimension_at 1 r in
       bind (metric_block r) (fun sess =>
       Ok (acc ++ [JDict [("source", src); ("medium", med);
                          ("sessions", JInt sess)]])))
    acc
  = Ok (acc ++ map Spec.traffic_row rows).
Proof.
  revert acc. induction rows as [|r rows IH]; intros acc; simpl.
  - by rewrite app_nil_r.
  - rewrite metric_block_coerce. simpl.
    rewrite IH, !dimension_at_coerce, <- app_assoc. reflexivity.
Qed.

Lemma total_loop (rows : list raw_row) (total : Z) :
  for_each (E:=E) rows
    (fun total row =>
       match metric_values row with
       | v :: _ =>
           try_except
             (bind (int_float v) (fun n => Ok (total + n)))
             (fun _ => Ok total)
       | [] => Ok total
       end)
    total
  = Ok (total + Spec.totalActive rows).
Proof.
  revert total. induction rows as [|r rows IH]; intros total; simpl.
  - f_equal. lia.
  - destruct (metric_values r) as [|v mv]; simpl.
    + rewrite IH. f_equal.
    + unfold int_float, bind at 2, try_except.
      destruct (py_float v) as [x|e]; simpl.
      * destruct (int_of_float x) as [n|e]; simpl; rewrite IH; f_equal; lia.
      * rewrite IH. f_equal.
Qed.

Lemma realtime_active_total_sum (rows : list raw_row) :
  realtime_active_total (E:=E) rows = Ok (Spec.totalActive rows).
Proof.
  unfold realtime_active_total. destruct rows as [|r rows]; [reflexivity|].
  rewrite total_loop. f_equal.
Qed.

Lemma realtime_pages_rows_map (rows : list raw_row) :
  realtime_pages_rows (E:=E) rows
  = Ok (map (Spec.row1 "pageTitle" "activeUsers") rows).
Proof.
  unfold realtime_pages_rows. destruct rows; [reflexivity|].
  by rewrite append_row_loop.
Qed.

Lemma urls_rows_map (rows : list raw_row) :
  urls_rows (E:=E) rows
  = Ok (map (Spec.row1 "pageLocation" "screenPageViews") rows).
Proof. unfold urls_rows. by rewrite append_row_loop. Qed.

Lemma traffic_rows_map (rows : list raw_row) :
  traffic_rows (E:=E) rows = Ok (map Spec.traffic_row rows).
Proof. unfold traffic_rows. by rewrite traffic_loop. Qed.

Lemma top_countries_rows_map (rows : list raw_row) :
  top_countries_rows (E:=E) rows
  = Ok (map (Spec.row1 "country" "activeUsers") rows).
Proof.
  unfold top_countries_rows. destruct rows; [reflexivity|].
  by rewrite append_row_loop.
Qed.
End NormalizerFacts.

(* ===================================================================== *)
(** ** The sign of a coerced metric *)
(* ===================================================================== *)







(** [int(float(s))] on texts where binary64 rounding or the special
    values decide the result, as CPython computes them. *)
Example int_float_rounds_up :
  int_float (PyStr "0.99999999999999999999") = Ok 1.
Proof. vm_compute. reflexivity. Qed.

Example int_float_rounds_to_even :
  int_float (PyStr "9007199254740993") = Ok 9007199254740992.
Proof. vm_compute. reflexivity. Qed.

Example int_float_1e23 :
  int_float (PyStr "1e23") = Ok 99999999999999991611392.
Proof. vm_compute. reflexivity. Qed.

Example int_float_special_values :
  int_float (PyStr "1e400") = Raise OverflowError
  /\ int_float (PyStr "-Infinity") = Raise OverflowError
  /\ int_float (PyStr "nan") = Raise ValueError
  /\ int_float (PyStr "1_000.5") = Ok 1000
  /\ int_float (PyStr " 7e-1 ") = Ok 0
  /\ int_float (PyStr "1__0") = Raise ValueError
  /\ int_float PyNone = Raise TypeError.
Proof. repeat split; vm_compute; reflexivity. Qed.

(* ===================================================================== *)
(** ** Claims about the normaliser *)
(* ===================================================================== *)

(** C3. Metric coercion is total: on every row the coercion block ends
    normally with an integer, whatever the raw value, and so does the
    realtime-active sum; an absent value and [None] give 0, ["12.9"]
    gives 12, ["abc"] gives 0 and ["5"] gives 5. *)
Theorem metric_coercion_total :
  (forall (E : Type) (r : raw_row), exists n : Z, metric_block (E:=E) r = Ok n)
  /\ (forall (E : Type) (rows : list raw_row),
        exists n : Z, realtime_active_total (E:=E) rows = Ok n)
  /\ metric_block (E:=conv_error) (RawRow [] []) = Ok 0
  /\ metric_block (E:=conv_error) (RawRow [] [PyNone]) = Ok 0
  /\ metric_block (E:=conv_error) (RawRow [] [PyStr "12.9"]) = Ok 12
  /\ metric_block (E:=conv_error) (RawRow [] [PyStr "abc"]) = Ok 0
  /\ metric_block (E:=conv_error) (RawRow [] [PyStr "5"]) = Ok 5.
Proof.
  split; [|split].
  - intros E r. eexists. apply metric_block_coerce.
  - intros E rows. eexists. apply realtime_active_total_sum.
  - repeat split; vm_compute; reflexivity.
Qed.




(** C5. realtime-active sums the coerced first metric of every row, an
    absent or unparseable value counting 0: rows ["3.0"], ["2.5"] and
    one without a metric give 5, and no rows give 0. *)
Theorem realtime_active_aggregation :
  (forall (E : Type) (rows : list raw_row),
     realtime_active_total (E:=E) rows = Ok (Spec.totalActive rows))
  /\ realtime_active_total (E:=client_error)
       [RawRow [] [PyStr "3.0"]; RawRow [] [PyStr "2.5"]; RawRow [] []] = Ok 5
  /\ realtime_active_total (E:=client_error)
       [RawRow [] [PyStr "3.0"]; RawRow [] [PyStr "2.5"]; RawRow [] [PyNone]]
     = Ok 5
  /\ realtime_active_total (E:=client_error) [] = Ok 0.
Proof.
  split; [intros; apply realtime_active_total_sum|].
  repeat split; vm_compute; reflexivity.
Qed.


(** C7. Each row-shaped endpoint emits one normalised row per raw row,
    in input order: its output is the raw rows mapped through the
    endpoint's row shape, so it has the input's length (60 rows in, 60
    rows out) and its i-th row comes from the i-th raw row. *)
Theorem row_endpoints_preserve_rows :
  forall (E : Type) (rows : list raw_row),
    let shape_of (out : result E (list json)) (shape : raw_row -> json) :=
      exists l : list json,
        out = Ok l /\ l = map shape rows /\ length l = length rows
        /\ forall i : nat, l !! i = shape <$> rows !! i in
    shape_of (realtime_pages_rows rows) (Spec.row1 "pageTitle" "activeUsers")
    /\ shape_of (urls_rows rows) (Spec.row1 "pageLocation" "screenPageViews")
    /\ shape_of (traffic_rows rows) Spec.traffic_row
    /\ shape_of (top_countries_rows rows) (Spec.row1 "country" "activeUsers").
Proof.
  intros E rows shape_of.
  assert (forall out shape, out = Ok (map shape rows) -> shape_of out shape) as Hs.
  { intros out shape ->. exists (map shape rows).
    repeat split; [apply length_map|]. intros i. apply list_lookup_fmap. }
  repeat split; apply Hs.
  - apply realtime_pages_rows_map.
  - apply urls_rows_map.
  - apply traffic_rows_map.
  - apply top_countries_rows_map.
Qed.

(* ===================================================================== *)
(** ** Claims about the TTL cache *)
(* ===================================================================== *)

Lemma Qgtb_true (a b : Q) : Qgtb a b = true <-> (b < a)%Q.
Proof.
  unfold Qgtb. rewrite negb_true_iff, <- not_true_iff_false, Qle_bool_iff.
  split; [apply Qnot_le_lt|apply Qlt_not_le].
Qed.




Lemma get_cached_absent (now : Q) (key : string) (w : world) :
  cache w !! key = None -> get_cached now key w = (JNull, w).
Proof. intros Hk. unfold get_cached. by rewrite Hk. Qed.





(* ===================================================================== *)
(** ** Claims about the cache keys *)
(* ===================================================================== *)

#[local] Arguments String.append !_ _ / : simpl nomatch.

Lemma has_colon_app (a b : string) :
  has_colon (a +:+ b) = has_colon a || has_colon b.
Proof. induction a as [|c a IH]; simpl; [done|]. by rewrite IH, orb_assoc. Qed.


(** Splitting at the first colon. *)
Lemma colon_split_first (x1 x2 y1 y2 : string) :
  has_colon x1 = false -> has_colon x2 = false ->
  x1 +:+ ":" +:+ y1 = x2 +:+ ":" +:+ y2 -> x1 = x2 /\ y1 = y2.
Proof.
  revert x2. induction x1 as [|c x1 IH]; intros [|d x2]; cbn.
  - intros _ _ [= ->]. done.
  - intros _ Hd [= <- _]. done.
  - intros Hc _ [= -> _]. done.
  - intros [_ H1]%orb_false_iff [_ H2]%orb_false_iff [= -> Heq].
    destruct (IH x2 H1 H2 Heq) as [-> ->]. done.
Qed.

(** Splitting at the last colon. *)
Lemma colon_split_last (x1 x2 y1 y2 : string) :
  has_colon y1 = false -> has_colon y2 = false ->
  x1 +:+ ":" +:+ y1 = x2 +:+ ":" +:+ y2 -> x1 = x2 /\ y1 = y2.
Proof.
  intros H1 H2. revert x2. induction x1 as [|c x1 IH]; intros [|d x2]; cbn.
  - intros [= ->]. done.
  - intros [= _ ->]. rewrite has_colon_app in H1. cbn in H1.
    by rewrite orb_true_r in H1.
  - intros [= _ <-]. rewrite has_colon_app in H2. cbn in H2.
    by rewrite orb_true_r in H2.
  - intros [= -> Heq]. destruct (IH x2 Heq) as [-> ->]. done.
Qed.




(** X18. The key of [/urls] tells date ranges apart when the dates hold
    no [":"]: if the two start dates, or the two end dates, contain no
    [":"], equal keys come only from equal start and end dates.  (The
    key joins its parts with [":"] unescaped, as the key of [/traffic]
    does, so without that condition two ranges can share a key.) *)
Lemma urls_key_injective (s1 e1 s2 e2 : string) :
  (has_colon s1 = false /\ has_colon s2 = false)
  \/ (has_colon e1 = false /\ has_colon e2 = false) ->
  urls_cache_key s1 e1 = urls_cache_key s2 e2 -> s1 = s2 /\ e1 = e2.
Proof.
  unfold urls_cache_key. intros Hfree Hkey.
  cbn in Hkey. injection Hkey as Hkey.
  destruct Hfree as [[H1 H2]|[H1 H2]].
  - by apply colon_split_first.
  - by apply colon_split_last.
Qed.

Lemma urls_key_injective_witness :
  ((has_colon "2024-01-01" = false /\ has_colon "2024-01-01" = false)
   \/ (has_colon "2024-01-31" = false /\ has_colon "2024-01-31" = false))
  /\ urls_cache_key "2024-01-01" "2024-01-31"
     = urls_cache_key "2024-01-01" "2024-01-31"
  /\ ("2024-01-01" = "2024-01-01" /\ "2024-01-31" = "2024-01-31").
Proof.
  split; [left; split; reflexivity|]. split; [reflexivity|].
  apply (urls_key_injective "2024-01-01" "2024-01-31" "2024-01-01" "2024-01-31");
    [left; split; reflexivity|reflexivity].
Defined.




(* ===================================================================== *)
(** ** The handlers against [lookupOrCompute] *)
(* ===================================================================== *)

Lemma log_call_twice (c1 c2 : call) (w : world) :
  log_call c2 (log_call c1 w) = {| cache := cache w; calls := calls w ++ [c1; c2] |}.
Proof. unfold log_call. simpl. by rewrite <- app_assoc. Qed.

(** Every handler is [lookupOrCompute] at its row of the table; the only
    other way out is the limit of [/traffic] failing to parse, before
    anything else happens. *)
Lemma handle_plan (PROPERTY : string) (CACHE_TTL : Z) (ga : ga_client)
  (r : route) (t : clock) (w : world) :
  handle PROPERTY CACHE_TTL ga r t w
  = match endpoint_plan PROPERTY CACHE_TTL r with
    | Raise e => (Uncaught e, w)
    | Ok p =>
        lookupOrCompute t (plan_key p) (plan_ttl p) (computeFn ga p t) w
    end.
Proof.
  destruct r as [| |args|args|]; simpl;
    unfold realtime_active, realtime_pages, urls_report, traffic_report,
      top_countries, lookupOrCompute.
  4: match goal with
     | |- context [int_of_str ?a] => destruct (int_of_str a) as [limit|e]
     end; simpl; [|done].
  all: destruct (get_cached _ _ w) as [cached w1];
       destruct (py_truthy cached); [done|].
  all: unfold run_try, abind, computeFn, upstream, upstream_calls,
         get_ga_client, client_run_realtime_report, client_run_report,
         lift, store, ret, bind, ga_answer; simpl.
  all: match goal with
       | |- context [credentials ?g] => destruct (credentials g) as [[]|e]
       end; simpl; [|done].
  all: match goal with
       | |- context [run_realtime_report ?g ?rq] =>
           destruct (run_realtime_report g rq) as [rows|e]
       | |- context [run_report ?g ?rq] =>
           destruct (run_report g rq) as [rows|e]
       end; simpl; [|by rewrite log_call_twice].
  all: rewrite ?realtime_active_total_sum, ?realtime_pages_rows_map,
         ?urls_rows_map, ?traffic_rows_map, ?top_countries_rows_map; simpl.
  all: by rewrite log_call_twice.
Qed.

Lemma get_cached_calls (now : Q) (key : string) (w : world) :
  calls (snd (get_cached now key w)) = calls w.
Proof.
  unfold get_cached. destruct (cache w !! key) as [[expiry v]|]; [|done].
  by destruct (Qgtb now expiry).
Qed.

(** A lookup changes the cache at most by dropping the entry it read. *)
Lemma get_cached_cache (now : Q) (key : string) (w : world) :
  cache (snd (get_cached now key w)) = cache w
  \/ cache (snd (get_cached now key w)) = delete key (cache w).
Proof.
  unfold get_cached. destruct (cache w !! key) as [[expiry v]|]; [|by left].
  destruct (Qgtb now expiry); [by right|by left].
Qed.




Lemma lookupOrCompute_miss (ga : ga_client) (p : plan) (t : clock) (w : world) :
  py_truthy (fst (get_cached (time_at_get t) (plan_key p) w)) = false ->
  let w1 := snd (get_cached (time_at_get t) (plan_key p) w) in
  let w2 := {| cache := cache w1; calls := calls w ++ upstream_calls ga p |} in
  lookupOrCompute t (plan_key p) (plan_ttl p) (computeFn ga p t) w
  = match upstream ga p with
    | Raise e => (Reply (JDict [("error", JStr (str_e e))]) 500, w2)
    | Ok rows =>
        let out := plan_payload p (fetched_at t) rows in
        (Reply out 200, set_cached (time_at_set t) (plan_key p) out (plan_ttl p) w2)
    end.
Proof.
  intros Hmiss w1 w2. unfold lookupOrCompute.
  pose proof (get_cached_calls (time_at_get t) (plan_key p) w) as Hc.
  fold w1 in Hc. subst w2. rewrite <- Hc. subst w1.
  destruct (get_cached (time_at_get t) (plan_key p) w) as [cached w1].
  simpl in *. rewrite Hmiss.
  unfold run_try, abind, computeFn, store, ret.
  destruct (upstream ga p) as [rows|e]; reflexivity.
Qed.

Lemma plan_payload_truthy (PROPERTY : string) (CACHE_TTL : Z) (r : route)
  (p : plan) (stamp : string) (rows : list raw_row) :
  endpoint_plan PROPERTY CACHE_TTL r = Ok p ->
  py_truthy (plan_payload p stamp rows) = true.
Proof.
  destruct r as [| |args|args|]; simpl; try (by intros [= <-]).
  destruct (int_of_str _); simpl; [by intros [= <-]|done].
Qed.




(* ===================================================================== *)
(** ** Texts that [int] rejects *)
(* ===================================================================== *)

Lemma lstrip_blank (l : list ascii) :
  exists sp : list ascii, l = sp ++ lstrip l /\ forallb is_space sp = true.
Proof.
  induction l as [|c l [sp [Hl Hsp]]]; [by exists []|]. simpl.
  destruct (is_space c) eqn:Hc; [|by exists []].
  exists (c :: sp). simpl. rewrite Hc, Hsp. split; [by f_equal|done].
Qed.

Lemma strip_blank (l : list ascii) :
  exists sp1 sp2 : list ascii,
    l = sp1 ++ strip l ++ sp2
    /\ forallb is_space sp1 = true /\ forallb is_space sp2 = true.
Proof.
  unfold strip.
  destruct (lstrip_blank l) as [sp1 [H1 Hsp1]].
  destruct (lstrip_blank (rev (lstrip l))) as [sp2 [H2 Hsp2]].
  exists sp1, (rev sp2). repeat split; [|done|].
  - rewrite <- rev_app_distr, <- H2, rev_involutive. exact H1.
  - rewrite forallb_forall in *. intros c Hc. apply Hsp2. by apply in_rev.
Qed.

Lemma digits_go_numeric (l : list ascii) (v n v' n' : Z) :
  digits_go l v n = (v', n', []) -> forallb numeric_char l = true.
Proof.
  remember (length l) as k eqn:Hk. revert l v n Hk.
  induction k as [k IH] using lt_wf_ind. intros [|c l] v n Hk; [done|].
  simpl in *. unfold numeric_char at 1.
  destruct (digit_val c) as [d|] eqn:Hd.
  - intros Hgo. rewrite orb_true_r. simpl.
    eapply (IH (length l)); [lia|done|exact Hgo].
  - destruct (is_char 95 c) eqn:H95; [|done].
    destruct l as [|c2 l]; [done|].
    destruct (digit_val c2) as [d|] eqn:Hd2; [|done].
    intros Hgo. rewrite !orb_true_r. simpl. unfold numeric_char at 1.
    rewrite Hd2, orb_true_r. simpl.
    eapply (IH (length l)); [simpl in Hk; lia|done|exact Hgo].
Qed.

Lemma int_of_str_numeric (s : string) (n : Z) :
  int_of_str s = Ok n -> non_numeric s = false.
Proof.
  unfold int_of_str, non_numeric. rewrite negb_false_iff.
  set (l0 := list_ascii_of_string s).
  destruct (strip_blank l0) as (sp1 & sp2 & Heq & H1 & H2).
  assert (forall sp, forallb is_space sp = true ->
                     forallb numeric_char sp = true) as Hblank.
  { intros sp Hsp. rewrite forallb_forall in *. intros c Hc.
    unfold numeric_char. by rewrite (Hsp c Hc). }
  destruct (sign (strip l0)) as [neg l] eqn:Hsign.
  destruct (digitpart l) as [[[v k] [|]]|] eqn:Hdigits; [|done..].
  intros _.
  rewrite Heq, !forallb_app, (Hblank _ H1), (Hblank _ H2), andb_true_r.
  simpl.
  assert (forallb numeric_char l = true) as Hl.
  { unfold digitpart in Hdigits. destruct l as [|c l]; [done|].
    destruct (digit_val c) as [d|] eqn:Hd; [|done].
    injection Hdigits as Hgo. simpl. unfold numeric_char at 1.
    rewrite Hd, orb_true_r. simpl. by eapply digits_go_numeric. }
  revert Hsign. unfold sign.
  destruct (strip l0) as [|c l1]; [by intros [= _ <-]|].
  destruct (is_char 45 c) eqn:H45.
  { intros [= _ <-]. simpl. unfold numeric_char at 1.
    by rewrite H45, Hl, !orb_true_r. }
  destruct (is_char 43 c) eqn:H43.
  { intros [= _ <-]. simpl. unfold numeric_char at 1.
    by rewrite H43, Hl, !orb_true_r. }
  by intros [= _ <-].
Qed.

(** A text with a character foreign to integer literals makes [int]
    raise [ValueError]. *)
Lemma int_of_str_non_numeric (s : string) :
  non_numeric s = true -> int_of_str s = Raise ValueError.
Proof.
  intros Hs. destruct (int_of_str s) as [n|e] eqn:Hint.
  - apply int_of_str_numeric in Hint. congruence.
  - revert Hint. unfold int_of_str.
    destruct (sign _) as [neg l].
    destruct (digitpart l) as [[[v k] [|]]|]; congruence.
Qed.

(* ===================================================================== *)
(** ** Claims about the handlers *)
(* ===================================================================== *)









(* ===================================================================== *)
(** ** Further properties of the cache *)
(* ===================================================================== *)

(** X1. Reading a key twice at the same clock reading gives the same
    result both times, and the second read changes nothing: whatever
    [get_cached] removes, it removes on the first read. *)
Theorem get_cached_idempotent (now : Q) (key : string) (w : world) :
  get_cached now key (snd (get_cached now key w)) = get_cached now key w.
Proof.
  unfold get_cached.
  destruct (cache w !! key) as [[expiry v]|] eqn:Hk;
    [destruct (Qgtb now expiry) eqn:Hexp|]; simpl;
    rewrite ?lookup_delete_eq, ?Hk, ?Hexp; done.
Qed.

(** X2. A miss persists. If a lookup of a key comes back falsy (what the
    handlers' [if cached:] treats as a miss), then on the same cache every
    lookup at a later clock reading is falsy too, and on the cache the
    lookup left behind every lookup is falsy, whatever the clock reads:
    only [set_cached] brings the key back. *)
Theorem get_cached_miss_persists (now now' : Q) (key : string) (w : world) :
  (now <= now')%Q ->
  py_truthy (fst (get_cached now key w)) = false ->
  py_truthy (fst (get_cached now' key w)) = false
  /\ (forall later : Q,
        py_truthy (fst (get_cached later key (snd (get_cached now key w))))
        = false).
Proof.
  intros Hle. unfold get_cached.
  destruct (cache w !! key) as [[expiry v]|] eqn:Hk; [|simpl; by rewrite Hk].
  destruct (Qgtb now expiry) eqn:Hexp; simpl.
  - intros _. split.
    + apply Qgtb_true in Hexp.
      assert (Qgtb now' expiry = true) as -> by (apply Qgtb_true; lra). done.
    + intros later. by rewrite lookup_delete_eq.
  - intros Hv. split.
    + by destruct (Qgtb now' expiry).
    + intros later. rewrite ?Hk. by destruct (Qgtb later expiry).
Qed.

Lemma get_cached_miss_persists_witness :
  let w := set_cached 100 "realtime-active" (JInt 1) 5 (World ∅ []) in
  ((106 <= 200)%Q
   /\ py_truthy (fst (get_cached 106 "realtime-active" w)) = false)
  /\ (py_truthy (fst (get_cached 200 "realtime-active" w)) = false
      /\ (forall later : Q,
            py_truthy (fst (get_cached later "realtime-active"
                              (snd (get_cached 106 "realtime-active" w))))
            = false)).
Proof.
  split.
  - split; vm_compute; congruence.
  - apply (get_cached_miss_persists 106 200 "realtime-active"
             (set_cached 100 "realtime-active" (JInt 1) 5 (World ∅ [])));
      vm_compute; congruence.
Defined.

(* ===================================================================== *)
(** ** Further properties of the handlers *)
(* ===================================================================== *)


Lemma get_cached_insert (now : Q) (key : string) (w : world) (x : Q * json) :
  <[key := x]> (cache (snd (get_cached now key w))) = <[key := x]> (cache w).
Proof.
  destruct (get_cached_cache now key w) as [-> | ->]; [done|].
  apply insert_delete_eq.
Qed.





(** What a request can do to the cache: nothing, drop the expired entry
    of its own fingerprint, or replace the entry of its own fingerprint
    by the payload it built. *)
Lemma handle_cache_cases (PROPERTY : string) (CACHE_TTL : Z) (ga : ga_client)
  (r : route) (t : clock) (w : world) :
  let w' := snd (handle PROPERTY CACHE_TTL ga r t w) in
  cache w' = cache w
  \/ exists p : plan,
       endpoint_plan PROPERTY CACHE_TTL r = Ok p
       /\ (cache w' = delete (plan_key p) (cache w)
           \/ exists rows : list raw_row,
                cache w'
                = <[plan_key p := ((time_at_set t + inject_Z (plan_ttl p))%Q,
                                   plan_payload p (fetched_at t) rows)]> (cache w)).
Proof.
  intros w'. subst w'. rewrite handle_plan.
  destruct (endpoint_plan PROPERTY CACHE_TTL r) as [p|e] eqn:Hp; [|by left].
  destruct (py_truthy (fst (get_cached (time_at_get t) (plan_key p) w))) eqn:Hc.
  - unfold lookupOrCompute.
    pose proof (get_cached_cache (time_at_get t) (plan_key p) w) as Hw1.
    destruct (get_cached (time_at_get t) (plan_key p) w) as [cached w1].
    simpl in *. rewrite Hc. simpl.
    destruct Hw1 as [Hw1|Hw1]; [by left|]. right. exists p. split; [done|by left].
  - rewrite (lookupOrCompute_miss ga p t w Hc).
    destruct (upstream ga p) as [rows|e]; simpl.
    + right. exists p. split; [done|]. right. exists rows. apply get_cached_insert.
    + destruct (get_cached_cache (time_at_get t) (plan_key p) w) as [Hw1|Hw1];
        [by left|]. right. exists p. split; [done|by left].
Qed.

(** X5. A request touches the cache only under its own fingerprint: the
    entry of every other key, present or not, is after the request what
    it was before, whether the request hit, missed, failed upstream or
    ended in an exception.  In particular no request ever evicts another
    key's entry. *)
Theorem request_touches_own_key_only (PROPERTY : string) (CACHE_TTL : Z)
  (ga : ga_client) (r : route) (t : clock) (w : world) (k : string) :
  (forall p : plan, endpoint_plan PROPERTY CACHE_TTL r = Ok p -> k <> plan_key p) ->
  cache (snd (handle PROPERTY CACHE_TTL ga r t w)) !! k = cache w !! k.
Proof.
  intros Hk.
  destruct (handle_cache_cases PROPERTY CACHE_TTL ga r t w)
    as [->|(p & Hp & [->|[rows ->]])]; [done| |].
  - apply lookup_delete_ne. intros Heq. by apply (Hk p Hp).
  - apply lookup_insert_ne. intros Heq. by apply (Hk p Hp).
Qed.

Lemma request_touches_own_key_only_witness :
  let t := Clock 200 200 "2024-05-01T10:01:40Z" in
  let r := Urls [("start_date", "2024-01-01")] in
  (forall p : plan, endpoint_plan "123456789" 5 r = Ok p ->
                    "realtime-active" <> plan_key p)
  /\ cache (snd (handle "123456789" 5 ga_up r t world_after_first_request))
       !! "realtime-active"
     = cache world_after_first_request !! "realtime-active".
Proof.
  intros t r.
  assert (forall p : plan, endpoint_plan "123456789" 5 r = Ok p ->
                           "realtime-active" <> plan_key p) as Hk.
  { intros p [= <-]. discriminate. }
  split; [exact Hk|].
  apply (request_touches_own_key_only "123456789" 5 ga_up r t
           world_after_first_request "realtime-active" Hk).
Defined.

(** X6. When the service-account credentials cannot be loaded, a request
    that misses the cache replies [{"error": str(e)}] with status 500 for
    the credential error [e], and no report is asked for: the only
    upstream step is the attempt to build the client. *)
Theorem credentials_failure_reply (PROPERTY : string) (CACHE_TTL : Z)
  (ga : ga_client) (r : route) (p : plan) (t : clock) (w : world)
  (e : client_error) :
  endpoint_plan PROPERTY CACHE_TTL r = Ok p ->
  py_truthy (fst (get_cached (time_at_get t) (plan_key p) w)) = false ->
  credentials ga = Raise e ->
  fst (handle PROPERTY CACHE_TTL ga r t w)
  = Reply (JDict [("error", JStr (str_e e))]) 500
  /\ calls (snd (handle PROPERTY CACHE_TTL ga r t w)) = calls w ++ [GetClient].
Proof.
  intros Hp Hmiss Hcred.
  rewrite handle_plan, Hp, (lookupOrCompute_miss ga p t w Hmiss).
  unfold upstream, upstream_calls. rewrite Hcred. done.
Qed.

Lemma credentials_failure_reply_witness :
  let t := Clock 100 100 "2024-05-01T10:00:00Z" in
  let r := Traffic [("limit", "10")] in
  fst (handle "123456789" 5 ga_locked r t (World ∅ []))
  = Reply (JDict [("error",
             JStr "[Errno 2] No such file or directory: 'service_account.json'")])
      500
  /\ calls (snd (handle "123456789" 5 ga_locked r t (World ∅ [])))
     = calls (World ∅ []) ++ [GetClient].
Proof.
  intros t r.
  eapply (credentials_failure_reply "123456789" 5 ga_locked r _ t (World ∅ [])
            (ClientError
               "[Errno 2] No such file or directory: 'service_account.json'"));
    reflexivity.
Defined.


(* ===================================================================== *)
(** ** What the cache holds and what a reply looks like *)
(* ===================================================================== *)

(** The keys of different endpoints differ in one of their first two
    characters. *)
Lemma plan_key_same_endpoint (PROPERTY : string) (CACHE_TTL : Z)
  (r1 r2 : route) (p1 p2 : plan) :
  endpoint_plan PROPERTY CACHE_TTL r1 = Ok p1 ->
  endpoint_plan PROPERTY CACHE_TTL r2 = Ok p2 ->
  plan_key p1 = plan_key p2 -> same_endpoint r1 r2 = true.
Proof.
  destruct r1 as [| |a1|a1|], r2 as [| |a2|a2|]; simpl;
    repeat match goal with
           | |- context [int_of_str ?a] => destruct (int_of_str a); simpl
           end;
    intros H1 H2; try discriminate H1; try discriminate H2;
    injection H1 as <-; injection H2 as <-; simpl;
    unfold urls_cache_key, traffic_cache_key; cbn; first [done|discriminate].
Qed.

(** The payload an endpoint builds and its TTL do not depend on the
    request's parameters. *)
Lemma same_endpoint_payload (PROPERTY : string) (CACHE_TTL : Z)
  (r1 r2 : route) (p1 p2 : plan) :
  endpoint_plan PROPERTY CACHE_TTL r1 = Ok p1 ->
  endpoint_plan PROPERTY CACHE_TTL r2 = Ok p2 ->
  same_endpoint r1 r2 = true ->
  plan_payload p1 = plan_payload p2 /\ plan_ttl p1 = plan_ttl p2.
Proof.
  destruct r1 as [| |a1|a1|], r2 as [| |a2|a2|]; simpl;
    repeat match goal with
           | |- context [int_of_str ?a] => destruct (int_of_str a); simpl
           end;
    intros H1 H2; try discriminate H1; try discriminate H2;
    injection H1 as <-; injection H2 as <-; simpl; done.
Qed.

Lemma handle_entries (PROPERTY : string) (CACHE_TTL : Z) (ga : ga_client)
  (r : route) (t : clock) (w : world) :
  endpoint_entries PROPERTY CACHE_TTL w ->
  endpoint_entries PROPERTY CACHE_TTL (snd (handle PROPERTY CACHE_TTL ga r t w)).
Proof.
  intros Hw k expiry v.
  destruct (handle_cache_cases PROPERTY CACHE_TTL ga r t w)
    as [->|(p & Hp & [->|[rows ->]])].
  - apply Hw.
  - intros [_ Hk]%lookup_delete_Some. by apply Hw.
  - intros [[<- [= <- <-]]|[_ Hk]]%lookup_insert_Some; [|by apply Hw].
    by exists r, p, t, rows.
Qed.

Lemma reachable_entries (PROPERTY : string) (CACHE_TTL : Z) (w : world) :
  reachable PROPERTY CACHE_TTL w -> endpoint_entries PROPERTY CACHE_TTL w.
Proof.
  induction 1 as [|ga r t w _ IH]; [|by apply handle_entries].
  intros k expiry v Hk. simpl in Hk. by rewrite lookup_empty in Hk.
Qed.

(** A truthy result of a lookup is the value of an entry. *)
Lemma get_cached_hit_entry (now : Q) (key : string) (w : world) :
  py_truthy (fst (get_cached now key w)) = true ->
  exists expiry : Q, cache w !! key = Some (expiry, fst (get_cached now key w)).
Proof.
  unfold get_cached. destruct (cache w !! key) as [[expiry v]|]; [|done].
  destruct (Qgtb now expiry); [done|]. by exists expiry.
Qed.

(** How a request that got past its parameters ends, in a state the
    application can reach: with the endpoint's payload and 200, or with
    the error of a failed fetch and 500. *)
Lemma handle_reply_cases (PROPERTY : string) (CACHE_TTL : Z) (ga : ga_client)
  (r : route) (p : plan) (t : clock) (w : world) :
  reachable PROPERTY CACHE_TTL w ->
  endpoint_plan PROPERTY CACHE_TTL r = Ok p ->
  (exists (stamp : string) (rows : list raw_row),
     fst (handle PROPERTY CACHE_TTL ga r t w)
     = Reply (plan_payload p stamp rows) 200)
  \/ (exists e : client_error,
        upstream ga p = Raise e
        /\ fst (handle PROPERTY CACHE_TTL ga r t w)
           = Reply (JDict [("error", JStr (str_e e))]) 500).
Proof.
  intros Hw Hp. rewrite handle_plan, Hp.
  destruct (py_truthy (fst (get_cached (time_at_get t) (plan_key p) w))) eqn:Hc.
  - left. destruct (get_cached_hit_entry _ _ _ Hc) as [expiry Hk].
    destruct (reachable_entries _ _ _ Hw _ _ _ Hk)
      as (r0 & p0 & t0 & rows & Hp0 & Hkey & Hv & _).
    pose proof (plan_key_same_endpoint _ _ _ _ _ _ Hp Hp0 Hkey) as Hsame.
    destruct (same_endpoint_payload _ _ _ _ _ _ Hp Hp0 Hsame) as [Hpay _].
    exists (fetched_at t0), rows. rewrite Hpay, <- Hv.
    unfold lookupOrCompute.
    destruct (get_cached (time_at_get t) (plan_key p) w) as [cached w1].
    simpl in *. by rewrite Hc.
  - rewrite (lookupOrCompute_miss ga p t w Hc).
    destruct (upstream ga p) as [rows|e]; simpl.
    + left. by exists (fetched_at t), rows.
    + right. by exists e.
Qed.

(** The fields of an endpoint's payload: a time stamp, never an error. *)
Lemma plan_payload_fields (PROPERTY : string) (CACHE_TTL : Z) (r : route)
  (p : plan) (stamp : string) (rows : list raw_row) :
  endpoint_plan PROPERTY CACHE_TTL r = Ok p ->
  dict_get "error" (plan_payload p stamp rows) = None
  /\ dict_get "fetchedAt" (plan_payload p stamp rows) = Some (JStr stamp).
Proof.
  destruct r as [| |args|args|]; simpl;
    repeat match goal with
           | |- context [int_of_str ?a] => destruct (int_of_str a); simpl
           end;
    intros H; try discriminate H; injection H as <-; done.
Qed.

(** X8. Status and body of a reply agree.  In every state the application
    can reach, a reply has status 200 or 500; a 200 reply carries a
    [fetchedAt] time stamp and no [error] field, whether it was served
    from the cache or freshly built; a 500 reply is exactly
    [{"error": <message>}]. *)
Theorem reply_status_matches_body (PROPERTY : string) (CACHE_TTL : Z)
  (ga : ga_client) (r : route) (t : clock) (w : world)
  (body : json) (status : Z) :
  reachable PROPERTY CACHE_TTL w ->
  fst (handle PROPERTY CACHE_TTL ga r t w) = Reply body status ->
  (status = 200
   /\ dict_get "error" body = None
   /\ exists stamp : string, dict_get "fetchedAt" body = Some (JStr stamp))
  \/ (status = 500
      /\ exists msg : string, body = JDict [("error", JStr msg)]).
Proof.
  intros Hw Hreply.
  destruct (endpoint_plan PROPERTY CACHE_TTL r) as [p|e] eqn:Hp.
  2: { rewrite handle_plan, Hp in Hreply. discriminate. }
  destruct (handle_reply_cases PROPERTY CACHE_TTL ga r p t w Hw Hp)
    as [(stamp & rows & Hout)|(e & _ & Hout)];
    rewrite Hout in Hreply; injection Hreply as <- <-.
  - left. split; [done|].
    destruct (plan_payload_fields _ _ _ _ stamp rows Hp) as [Herr Hstamp].
    split; [done|]. by exists stamp.
  - right. split; [done|]. by exists (str_e e).
Qed.

Lemma reply_status_matches_body_witness :
  let body := JDict [("error", JStr "429 quota exhausted")] in
  (500 = 200
   /\ dict_get "error" body = None
   /\ exists stamp : string, dict_get "fetchedAt" body = Some (JStr stamp))
  \/ (500 = 500
      /\ exists msg : string, body = JDict [("error", JStr msg)]).
Proof.
  intros body.
  apply (reply_status_matches_body "123456789" 5 ga_down RealtimeActive
           (Clock 200 200 "2024-05-01T10:01:40Z") world_after_first_request
           body 500).
  - apply reach_request, reach_start.
  - vm_compute. reflexivity.
Defined.

(** X9. What the cache can hold.  In every state the application can
    reach, an entry sits under the key of one of the five endpoints, and
    its value is a success payload: truthy, with a [fetchedAt] time stamp
    and without an [error] field.  Error replies are never cached. *)
Theorem cache_holds_success_payloads (PROPERTY : string) (CACHE_TTL : Z)
  (w : world) (k : string) (expiry : Q) (v : json) :
  reachable PROPERTY CACHE_TTL w ->
  cache w !! k = Some (expiry, v) ->
  (k = "realtime-active" \/ k = "realtime-pages" \/ k = "top-countries"
   \/ (exists s e : string, k = urls_cache_key s e)
   \/ (exists (s e : string) (l : Z), k = traffic_cache_key s e l))
  /\ py_truthy v = true
  /\ dict_get "error" v = None
  /\ (exists stamp : string, dict_get "fetchedAt" v = Some (JStr stamp)).
Proof.
  intros Hw Hk.
  destruct (reachable_entries _ _ _ Hw _ _ _ Hk)
    as (r & p & t & rows & Hp & -> & -> & _).
  destruct (plan_payload_fields _ _ _ _ (fetched_at t) rows Hp) as [Herr Hstamp].
  split; [|split; [by eapply plan_payload_truthy|split; [done|by eexists]]].
  destruct r as [| |args|args|]; simpl in Hp;
    repeat match type of Hp with
           | context [int_of_str ?a] => destruct (int_of_str a); simpl in Hp
           end;
    try discriminate Hp; injection Hp as <-; simpl.
  - by left.
  - by right; left.
  - do 3 right. left. by eexists _, _.
  - do 4 right. by eexists _, _, _.
  - by right; right; left.
Qed.

Lemma cache_holds_success_payloads_witness :
  let v := JDict [("totalActive", JInt 5);
                  ("fetchedAt", JStr "2024-05-01T10:00:00Z")] in
  let k := "realtime-active" in
  (k = "realtime-active" \/ k = "realtime-pages" \/ k = "top-countries"
   \/ (exists s e : string, k = urls_cache_key s e)
   \/ (exists (s e : string) (l : Z), k = traffic_cache_key s e l))
  /\ py_truthy v = true
  /\ dict_get "error" v = None
  /\ (exists stamp : string, dict_get "fetchedAt" v = Some (JStr stamp)).
Proof.
  intros v k.
  apply (cache_holds_success_payloads "123456789" 5 world_after_first_request
           k (100 + inject_Z 5)%Q v).
  - apply reach_request, reach_start.
  - vm_compute. reflexivity.
Defined.

(** X10. Endpoints never share a fingerprint.  Two requests whose cache
    keys are equal go to the same endpoint, and so agree on the TTL and
    on how raw rows are turned into the payload: a request can only be
    served an entry that its own endpoint wrote. *)
Theorem shared_fingerprint_same_endpoint (PROPERTY : string) (CACHE_TTL : Z)
  (r1 r2 : route) (p1 p2 : plan) :
  endpoint_plan PROPERTY CACHE_TTL r1 = Ok p1 ->
  endpoint_plan PROPERTY CACHE_TTL r2 = Ok p2 ->
  plan_key p1 = plan_key p2 ->
  same_endpoint r1 r2 = true
  /\ plan_ttl p1 = plan_ttl p2
  /\ plan_payload p1 = plan_payload p2.
Proof.
  intros H1 H2 Hkey.
  pose proof (plan_key_same_endpoint _ _ _ _ _ _ H1 H2 Hkey) as Hsame.
  destruct (same_endpoint_payload _ _ _ _ _ _ H1 H2 Hsame) as [Hpay Httl].
  done.
Qed.

Lemma shared_fingerprint_same_endpoint_witness :
  exists p1 p2 : plan,
    endpoint_plan "123456789" 5 (Urls [("start_date", "a:b"); ("end_date", "c")])
    = Ok p1
    /\ endpoint_plan "123456789" 5 (Urls [("start_date", "a"); ("end_date", "b:c")])
       = Ok p2
    /\ plan_key p1 = plan_key p2
    /\ same_endpoint (Urls [("start_date", "a:b"); ("end_date", "c")])
         (Urls [("start_date", "a"); ("end_date", "b:c")]) = true
    /\ plan_ttl p1 = plan_ttl p2
    /\ plan_payload p1 = plan_payload p2.
Proof.
  eexists _, _. split; [reflexivity|]. split; [reflexivity|].
  split; [reflexivity|].
  apply (shared_fingerprint_same_endpoint "123456789" 5
           (Urls [("start_date", "a:b"); ("end_date", "c")])
           (Urls [("start_date", "a"); ("end_date", "b:c")])); reflexivity.
Defined.

(** X11. [rowCount] is the number of rows in the reply.  In every state
    the application can reach, a 200 reply of [/urls] or [/traffic],
    cached or fresh, has a list under [rows] and its length under
    [rowCount]. *)
Theorem row_count_matches_rows (PROPERTY : string) (CACHE_TTL : Z)
  (ga : ga_client) (r : route) (args : list (string * string)) (t : clock)
  (w : world) (body : json) :
  reachable PROPERTY CACHE_TTL w ->
  r = Urls args \/ r = Traffic args ->
  fst (handle PROPERTY CACHE_TTL ga r t w) = Reply body 200 ->
  exists l : list json,
    dict_get "rows" body = Some (JList l)
    /\ dict_get "rowCount" body = Some (JInt (Z.of_nat (length l))).
Proof.
  intros Hw Hr Hreply.
  destruct (endpoint_plan PROPERTY CACHE_TTL r) as [p|e] eqn:Hp.
  2: { rewrite handle_plan, Hp in Hreply. discriminate. }
  destruct (handle_reply_cases PROPERTY CACHE_TTL ga r p t w Hw Hp)
    as [(stamp & rows & Hout)|(e & _ & Hout)];
    rewrite Hout in Hreply; [|discriminate].
  injection Hreply as <-.
  destruct Hr as [-> | ->]; simpl in Hp;
    repeat match type of Hp with
           | context [int_of_str ?a] => destruct (int_of_str a); simpl in Hp
           end;
    try discriminate Hp; injection Hp as <-; simpl; by eexists.
Qed.

Lemma row_count_matches_rows_witness :
  let t := Clock 100 101 "2024-05-01T10:00:01Z" in
  let r := Traffic [("limit", "10")] in
  let body := JDict [("rows",
                      JList [JDict [("source", JStr "google");
                                    ("medium", JStr "(unknown)");
                                    ("sessions", JInt 7)];
                             JDict [("source", JStr "(unknown)");
                                    ("medium", JStr "(unknown)");
                                    ("sessions", JInt 0)]]);
                     ("rowCount", JInt 2);
                     ("fetchedAt", JStr "2024-05-01T10:00:01Z")] in
  exists l : list json,
    dict_get "rows" body = Some (JList l)
    /\ dict_get "rowCount" body = Some (JInt (Z.of_nat (length l))).
Proof.
  intros t r body.
  apply (row_count_matches_rows "123456789" 5 ga_up r [("limit", "10")] t
           world_after_first_request body).
  - apply reach_request, reach_start.
  - by right.
  - vm_compute. reflexivity.
Defined.

(* ===================================================================== *)
(** ** Reading back a printed integer *)
(* ===================================================================== *)

Lemma pretty_N_char_digit (d : N) :
  (d < 10)%N -> digit_val (pretty_N_char d) = Some (Z.of_N d).
Proof.
  intros Hd.
  assert (d = 0 \/ d = 1 \/ d = 2 \/ d = 3 \/ d = 4 \/ d = 5 \/ d = 6
          \/ d = 7 \/ d = 8 \/ d = 9)%N as Hcases by lia.
  repeat destruct Hcases as [->|Hcases]; try subst d; reflexivity.
Qed.

(** A digit character is no blank, no sign, and not the first letter of
    [inf] or [nan]. *)
Lemma pretty_N_char_plain (d : N) :
  let c := pretty_N_char d in
  is_space c = false /\ is_char 45 c = false /\ is_char 43 c = false
  /\ Ascii.eqb (lower c) "i" = false /\ Ascii.eqb (lower c) "n" = false.
Proof. unfold pretty_N_char. by repeat case_match. Qed.

Lemma pretty_N_go_forallb (P : ascii -> bool) (x : N) (s : string) :
  (forall d : N, P (pretty_N_char d) = true) ->
  forallb P (list_ascii_of_string s) = true ->
  forallb P (list_ascii_of_string (pretty_N_go x s)) = true.
Proof.
  intros HP. revert s. induction (N.lt_wf_0 x) as [x _ IH]; intros s Hs.
  destruct (decide (0 < x)%N) as [Hx|Hx].
  - rewrite pretty_N_go_step by done. apply IH; [by apply N.div_lt|].
    simpl. by rewrite HP, Hs.
  - assert (x = 0%N) as -> by lia. by rewrite pretty_N_go_0.
Qed.

(** The printed digits of a positive number start with a digit. *)
Lemma pretty_N_go_head (x : N) (s : string) :
  (0 < x)%N ->
  exists (d : N) (l : list ascii),
    list_ascii_of_string (pretty_N_go x s) = pretty_N_char d :: l.
Proof.
  revert s. induction (N.lt_wf_0 x) as [x _ IH]; intros s Hx.
  rewrite pretty_N_go_step by done.
  destruct (decide (0 < x `div` 10)%N) as [Hq|Hq].
  - apply IH; [by apply N.div_lt|done].
  - apply N.nlt_ge, N.le_0_r in Hq. rewrite Hq, pretty_N_go_0.
    by eexists _, _.
Qed.

(** Reading the printed digits of [x] in front of [s] continues the
    value read so far with the digits of [x]. *)
Lemma digits_go_pretty (x : N) (s : string) (v n : Z) :
  exists k : Z,
    digits_go (list_ascii_of_string (pretty_N_go x s)) v n
    = digits_go (list_ascii_of_string s) (v * 10 ^ k + Z.of_N x) (n + k)
    /\ 0 <= k.
Proof.
  revert s v n. induction (N.lt_wf_0 x) as [x _ IH]; intros s v n.
  destruct (decide (0 < x)%N) as [Hx|Hx].
  - rewrite pretty_N_go_step by done.
    destruct (IH (x `div` 10)%N (N.div_lt x 10 Hx eq_refl)
                (String (pretty_N_char (x `mod` 10)) s) v n) as (k & -> & Hk).
    exists (k + 1). split; [|lia]. simpl.
    rewrite pretty_N_char_digit by (apply N.mod_lt; lia).
    f_equal; [|lia].
    rewrite Z.pow_add_r, Z.pow_1_r by lia.
    rewrite N2Z.inj_div, N2Z.inj_mod.
    pose proof (Z.div_mod (Z.of_N x) 10 ltac:(lia)) as Hdm.
    change (Z.of_N 10) with 10. lia.
  - assert (x = 0%N) as -> by lia. rewrite pretty_N_go_0.
    exists 0. split; [|lia]. f_equal; lia.
Qed.



(** A text without blanks is left alone by [strip]. *)
Lemma strip_plain (l : list ascii) :
  forallb (fun c => negb (is_space c)) l = true -> strip l = l.
Proof.
  intros Hl. unfold strip.
  assert (forall l', forallb (fun c => negb (is_space c)) l' = true ->
                     lstrip l' = l') as Hid.
  { intros [|c l']; simpl; [done|].
    intros [Hc _]%andb_true_iff. apply negb_true_iff in Hc. by rewrite Hc. }
  rewrite (Hid l Hl), Hid, rev_involutive; [done|].
  rewrite forallb_forall in *. intros c Hc. apply Hl. by apply in_rev.
Qed.

(** The printed form of a positive number, read back by the parsers:
    [strip] and [sign] leave it alone, and its digits are the number. *)
Lemma parse_pretty_positive (p : positive) :
  let l := list_ascii_of_string (pretty (Z.pos p)) in
  strip l = l
  /\ sign l = (false, l)
  /\ (exists k : Z, digitpart l = Some (Z.pos p, k, []))
  /\ exists (d : N) (l' : list ascii), l = pretty_N_char d :: l'.
Proof.
  cbv zeta. unfold pretty, pretty_Z, pretty, pretty_positive, pretty, pretty_N.
  rewrite decide_False by done.
  destruct (pretty_N_go_head (N.pos p) "" ltac:(lia)) as (d & l' & Hl).
  destruct (pretty_N_char_plain d) as (Hsp & H45 & H43 & _).
  repeat split.
  - apply strip_plain, pretty_N_go_forallb; [|done].
    intros d'. by destruct (pretty_N_char_plain d') as (-> & _).
  - rewrite Hl. unfold sign. by rewrite H45, H43.
  - destruct (digits_go_pretty (N.pos p) "" 0 0) as (k & Hgo & _).
    exists k. rewrite Hl in *. unfold digitpart.
    destruct (digit_val (pretty_N_char d)) as [dv|] eqn:Hd.
    + simpl in Hgo. rewrite Hd in Hgo.
      replace (digits_go l' dv 1) with (digits_go l' (10 * 0 + dv) (0 + 1))
        by (f_equal; lia).
      rewrite Hgo. simpl. repeat f_equal; lia.
    + unfold pretty_N_char, digit_val in Hd. by repeat case_match.
  - by exists d, l'.
Qed.




(* ===================================================================== *)
(** ** Integer counts below 2^53 are coerced exactly *)
(* ===================================================================== *)

Lemma digits2_pos_lower (p : positive) :
  2 ^ (Z.pos (digits2_pos p) - 1) <= Z.pos p.
Proof.
  induction p as [p IH|p IH|]; simpl digits2_pos; [| |done].
  all: rewrite Pos2Z.inj_succ.
  all: replace (Z.succ (Z.pos (digits2_pos p)) - 1)
         with (Z.succ (Z.pos (digits2_pos p) - 1)) by lia.
  all: rewrite Z.pow_succ_r by lia; lia.
Qed.

Lemma digits2_pos_53 (p : positive) :
  Z.pos p < 2 ^ 53 -> Z.pos (digits2_pos p) <= 53.
Proof.
  intros Hp. pose proof (digits2_pos_lower p) as Hlow.
  destruct (Z.le_gt_cases (Z.pos (digits2_pos p)) 53) as [|Hbig]; [done|].
  assert (2 ^ 53 <= 2 ^ (Z.pos (digits2_pos p) - 1)) as Hpow
    by (apply Z.pow_le_mono_r; lia).
  lia.
Qed.

Lemma digits2_pos_shift (p k : positive) :
  digits2_pos (Pos.iter xO p k) = (digits2_pos p + k)%positive.
Proof.
  induction k as [|k IH] using Pos.peano_ind.
  - simpl. lia.
  - rewrite Pos.iter_succ. simpl. rewrite IH. lia.
Qed.

Lemma pos_shift_value (p k : positive) :
  Z.pos (Pos.iter xO p k) = Z.pos p * 2 ^ Z.pos k.
Proof.
  induction k as [|k IH] using Pos.peano_ind.
  - simpl. lia.
  - rewrite Pos.iter_succ, Pos2Z.inj_xO, IH, Pos2Z.inj_succ, Z.pow_succ_r by lia.
    lia.
Qed.

(** A 53-bit mantissa with an exponent in range is already a binary64
    number: rounding leaves it alone. *)
Lemma binary_round_aux_canonical (s : bool) (m : positive) (e : Z) :
  Z.pos (digits2_pos m) = 53 -> -1074 <= e <= 971 ->
  binary_round_aux 53 1024 s (Z.pos m) e loc_Exact = S754_finite s m e.
Proof.
  intros Hd He. unfold binary_round_aux, shr_fexp.
  cbn [Zdigits2 shr_record_of_loc].
  assert (fexp 53 1024 (Z.pos (digits2_pos m) + e) - e = 0) as Hshift.
  { rewrite Hd. unfold fexp, emin. lia. }
  rewrite Hshift. cbn [shr shr_m loc_of_shr_record round_nearest_even
                         Zdigits2 shr_record_of_loc].
  rewrite Hshift. cbn [shr shr_m].
  assert ((e <=? 1024 - 53) = true) as -> by (apply Z.leb_le; lia). done.
Qed.

(** Below 2^53 an integer is a binary64 number. *)
Lemma binary_round_exact (s : bool) (p : positive) :
  Z.pos p < 2 ^ 53 ->
  exists (m : positive) (e : Z),
    binary_round 53 1024 s p 0 = S754_finite s m e
    /\ -52 <= e <= 0 /\ Z.pos m = Z.pos p * 2 ^ (- e).
Proof.
  intros Hp. pose proof (digits2_pos_53 p Hp) as Hd.
  assert (0 < Z.pos (digits2_pos p)) as Hd0 by lia.
  unfold binary_round.
  assert (fexp 53 1024 (Z.pos (digits2_pos p) + 0)
          = Z.pos (digits2_pos p) - 53) as ->.
  { unfold fexp, emin. lia. }
  unfold shl_align.
  destruct (Z.pos (digits2_pos p) - 53 - 0) as [|k|k] eqn:Hsh; [|lia|].
  - exists p, 0. split; [|split; [lia|simpl; lia]].
    apply binary_round_aux_canonical; lia.
  - exists (Pos.iter xO p k), (Z.pos (digits2_pos p) - 53).
    split; [|split; [lia|]].
    + apply binary_round_aux_canonical; [|lia].
      rewrite digits2_pos_shift, Pos2Z.inj_add. lia.
    + rewrite pos_shift_value. do 2 f_equal. lia.
Qed.

Lemma int_of_float_exact (s : bool) (p : positive) :
  Z.pos p < 2 ^ 53 ->
  int_of_float (binary_round 53 1024 s p 0)
  = Ok (if s then Z.neg p else Z.pos p).
Proof.
  intros Hp. destruct (binary_round_exact s p Hp) as (m & e & -> & He & Hm).
  unfold int_of_float. rewrite Hm. f_equal.
  assert ((if 0 <=? e then Z.pos p * 2 ^ (- e) * 2 ^ e
           else Z.pos p * 2 ^ (- e) / 2 ^ (- e)) = Z.pos p) as ->.
  { destruct (Z.leb_spec 0 e) as [H0|H0].
    - assert (e = 0) as -> by lia. simpl. lia.
    - apply Z.div_mul. apply Z.pow_nonzero; lia. }
  by destruct s.
Qed.

(** No text that starts with a digit spells [inf], [infinity] or [nan]. *)
Lemma inf_or_nan_digit (neg : bool) (d : N) (l : list ascii) :
  inf_or_nan neg (pretty_N_char d :: l) = None.
Proof.
  destruct (pretty_N_char_plain d) as (_ & _ & _ & Hi & Hn).
  unfold inf_or_nan. cbn [map string_of_list_ascii].
  generalize dependent (lower (pretty_N_char d)). intros a Hi Hn.
  cbn [String.eqb]. by rewrite Hi, Hn.
Qed.

(** [float(str(n))] is [n] rounded to binary64. *)
Lemma float_of_str_pretty (neg : bool) (p : positive) :
  float_of_str (pretty (if neg then Z.neg p else Z.pos p))
  = Ok (binary_round 53 1024 neg p 0).
Proof.
  destruct (parse_pretty_positive p)
    as (Hstrip & Hsign & (k & Hdigits) & (d & l' & Hl)).
  assert (sign (strip (list_ascii_of_string
                         (pretty (if neg then Z.neg p else Z.pos p))))
          = (neg, list_ascii_of_string (pretty (Z.pos p)))) as Hparse.
  { destruct neg; [|by rewrite Hstrip, Hsign].
    change (list_ascii_of_string (pretty (Z.neg p)))
      with ("-"%char :: list_ascii_of_string (pretty (Z.pos p))).
    rewrite strip_plain; [done|]. simpl.
    rewrite Hl. rewrite <- Hl.
    unfold pretty, pretty_Z, pretty, pretty_positive, pretty, pretty_N.
    rewrite decide_False by done.
    apply pretty_N_go_forallb; [|done].
    intros d'. by destruct (pretty_N_char_plain d') as (-> & _). }
  unfold float_of_str. rewrite Hparse.
  rewrite Hl at 1. rewrite inf_or_nan_digit.
  unfold number. rewrite Hdigits. cbn [exponent].
  unfold round_decimal.
  change (Z.pos p <=? 0) with false. change (0 <=? 0 - 0) with true.
  cbv iota. change (0 - 0) with 0.
  by rewrite Z.pow_0_r, Z.mul_1_r.
Qed.

(** [int(float(str(n))) == n] for [|n| < 2^53]. *)
Lemma int_float_pretty (n : Z) :
  Z.abs n < 2 ^ 53 -> int_float (PyStr (pretty n)) = Ok n.
Proof.
  intros Hn. destruct n as [|p|p]; [reflexivity| |].
  - unfold int_float, py_float.
    rewrite (float_of_str_pretty false p). simpl bind.
    by rewrite int_of_float_exact by lia.
  - unfold int_float, py_float.
    rewrite (float_of_str_pretty true p). simpl bind.
    by rewrite int_of_float_exact by lia.
Qed.

(** X13. Integer counts are coerced exactly.  A metric that upstream
    sends as the decimal text of an integer [n] with [|n| < 2^53] comes
    out of the coercion block as [n] itself: the detour through a
    binary64 float loses nothing below 2^53 (above it, it can:
    9007199254740993 becomes 9007199254740992). *)
Theorem integer_metric_exact (E : Type) (n : Z) (dims rest : list py_value) :
  Z.abs n < 2 ^ 53 ->
  metric_block (E:=E) (RawRow dims (PyStr (pretty n) :: rest)) = Ok n.
Proof.
  intros Hn. unfold metric_block. simpl.
  by rewrite (int_float_pretty n Hn).
Qed.

Lemma integer_metric_exact_witness :
  Z.abs 9007199254740991 < 2 ^ 53
  /\ metric_block (E:=client_error)
       (RawRow [PyStr "/home"] [PyStr (pretty 9007199254740991)])
     = Ok 9007199254740991.
Proof.
  split; [reflexivity|].
  apply (integer_metric_exact client_error 9007199254740991 [PyStr "/home"] []).
  reflexivity.
Defined.

(* ===================================================================== *)
(** ** A minus sign negates the coerced metric *)
(* ===================================================================== *)








(* ===================================================================== *)
(** ** Blanks around a metric, and the order of the rows *)
(* ===================================================================== *)

Lemma lstrip_blanks (ws l : list ascii) :
  forallb is_space ws = true -> lstrip (ws ++ l) = lstrip l.
Proof.
  induction ws as [|c ws IH]; simpl; [done|].
  intros [-> Hws]%andb_true_iff. by apply IH.
Qed.

Lemma lstrip_app (l m : list ascii) :
  lstrip (l ++ m) = match lstrip l with [] => lstrip m | _ => lstrip l ++ m end.
Proof.
  induction l as [|c l IH]; simpl; [by destruct (lstrip m)|].
  by destruct (is_space c).
Qed.

Lemma lstrip_all_blank (ws : list ascii) :
  forallb is_space ws = true -> lstrip ws = [].
Proof.
  intros Hws. rewrite <- (app_nil_r ws). by rewrite lstrip_blanks.
Qed.

(** Blanks on either side of a text are stripped with it. *)
Lemma strip_blanks (ws1 ws2 l : list ascii) :
  forallb is_space ws1 = true -> forallb is_space ws2 = true ->
  strip (ws1 ++ l ++ ws2) = strip l.
Proof.
  intros H1 H2. unfold strip. rewrite (lstrip_blanks ws1) by done.
  rewrite lstrip_app. destruct (lstrip l) as [|c l'] eqn:Hl.
  - by rewrite (lstrip_all_blank ws2).
  - rewrite rev_app_distr, lstrip_blanks; [done|].
    rewrite forallb_forall in *. intros a Ha. apply H2. by apply in_rev.
Qed.

Lemma list_ascii_of_string_app (a b : string) :
  list_ascii_of_string (a +:+ b)
  = list_ascii_of_string a ++ list_ascii_of_string b.
Proof. induction a as [|c a IH]; cbn; [done|]. by rewrite IH. Qed.

(** X15. Blanks around a metric value do not change what the coercion
    gives: the block turns a text padded on either side with ASCII
    blanks (space, tab, line feed, vertical tab, form feed, carriage
    return) into what it turns the bare text into. *)
Theorem padded_metric_coercion (E : Type) (ws1 s ws2 : string)
  (dims rest : list py_value) :
  forallb is_space (list_ascii_of_string ws1) = true ->
  forallb is_space (list_ascii_of_string ws2) = true ->
  metric_block (E:=E) (RawRow dims (PyStr (ws1 +:+ s +:+ ws2) :: rest))
  = metric_block (E:=E) (RawRow dims (PyStr s :: rest)).
Proof.
  intros H1 H2. unfold metric_block. cbn [metric_values].
  unfold int_float, py_float, float_of_str.
  by rewrite !list_ascii_of_string_app, strip_blanks.
Qed.

Lemma padded_metric_coercion_witness :
  (forallb is_space (list_ascii_of_string "  ") = true
   /\ forallb is_space (list_ascii_of_string " ") = true)
  /\ metric_block (E:=client_error)
       (RawRow [] [PyStr ("  " +:+ "12.9" +:+ " ")])
     = metric_block (E:=client_error) (RawRow [] [PyStr "12.9"]).
Proof.
  split; [by split|].
  apply (padded_metric_coercion client_error "  " "12.9" " " [] []);
    reflexivity.
Defined.

Lemma totalActive_permutation (rows rows' : list raw_row) :
  rows ≡ₚ rows' -> Spec.totalActive rows = Spec.totalActive rows'.
Proof.
  induction 1 as [|r l l' _ IH|r1 r2 l|l1 l2 l3 _ IH1 _ IH2]; simpl.
  - done.
  - by rewrite IH.
  - lia.
  - by rewrite IH1.
Qed.

(** X16. The total of [/realtime-active] does not depend on the order in
    which the rows arrive: two answers with the same rows in different
    orders give the same [totalActive]. *)
Theorem realtime_active_total_order_free (E : Type) (rows rows' : list raw_row) :
  rows ≡ₚ rows' ->
  realtime_active_total (E:=E) rows = realtime_active_total (E:=E) rows'.
Proof.
  intros Hperm. rewrite !realtime_active_total_sum.
  by rewrite (totalActive_permutation rows rows' Hperm).
Qed.

Lemma realtime_active_total_order_free_witness :
  let r1 := RawRow [] [PyStr "3.0"] in
  let r2 := RawRow [] [PyStr "abc"] in
  let r3 := RawRow [] [PyStr "2.5"] in
  [r1; r2; r3] ≡ₚ [r3; r1; r2]
  /\ realtime_active_total (E:=client_error) [r1; r2; r3]
     = realtime_active_total (E:=client_error) [r3; r1; r2].
Proof.
  intros r1 r2 r3.
  assert ([r1; r2; r3] ≡ₚ [r3; r1; r2]) as Hperm.
  { symmetry. apply (Permutation_cons_append [r1; r2] r3). }
  split; [exact Hperm|].
  apply (realtime_active_total_order_free client_error [r1; r2; r3]
           [r3; r1; r2] Hperm).
Defined.

(* ===================================================================== *)
(** ** Start-up *)
(* ===================================================================== *)

